(** * Container layout component and env.sh

  A shallow embedding of
    - [frontend/src/components/layout/container.tsx] (the [Container]
      React component), and
    - [eloo/scripts/env.sh] (two [export] statements),
  together with the properties of their specification. *)

From Stdlib Require Import ZArith String Ascii List Bool Lia.
From stdpp Require Import base option list strings gmap fin_maps.

Local Open Scope string_scope.
Local Open Scope list_scope.
Local Open Scope stdpp_scope.

(* ===================================================================== *)
(** ** JavaScript values and completions *)
(* ===================================================================== *)

Module JS.

(** An expression either completes normally with a value or throws.  The
    only exception the component could raise is the [TypeError] of a
    method call on [undefined]. *)
Inductive completion (A : Type) : Type :=
| Ok (a : A)
| TypeError.
Arguments Ok {A} a.
Arguments TypeError {A}.

#[export] Instance completion_ret : MRet completion := fun _ a => Ok a.
#[export] Instance completion_bind : MBind completion := fun _ _ k m =>
  match m with
  | Ok a => k a
  | TypeError => TypeError
  end.

Definition completes {A} (m : completion A) : bool :=
  match m with Ok _ => true | TypeError => false end.

(** The numbers a caller can write in a label: the integers and [NaN].
    Any other double is non-zero and behaves as a non-zero [Int] below. *)
Inductive number : Type :=
| NaN
| Int (z : Z).

(** [ToBoolean] on numbers: [0] and [NaN] are falsy. *)
Definition number_truthy (n : number) : bool :=
  match n with
  | NaN => false
  | Int z => negb (z =? 0)%Z
  end.

(** [ToBoolean] on strings: only the empty string is falsy. *)
Definition string_truthy (s : string) : bool :=
  match s with
  | EmptyString => false
  | String _ _ => true
  end.

(** [recv.map(f)] on a receiver that is an array or [undefined]. *)
Definition Array_map {A B} (recv : option (list A)) (f : A -> B)
  : completion (list B) :=
  match recv with
  | Some xs => Ok (List.map f xs)
  | None => TypeError
  end.

(** [ToBoolean] on [T[] | undefined]: every array, the empty one too, is
    an object and therefore truthy. *)
Definition array_truthy {A} (v : option (list A)) : bool :=
  match v with
  | Some _ => true
  | None => false
  end.

End JS.
Import JS.

(* ===================================================================== *)
(** ** React nodes *)
(* ===================================================================== *)

Module React.

(** [React.ReactNode]: what may stand between JSX braces.  Host elements
    carry their tag, [className] and children; [NavTab] elements carry
    their key and the six props the container passes on. *)
#[warnings="-register-all"]
Inductive ReactNode : Type :=
| RUndefined
| RNull
| RBool (b : bool)
| RString (s : string)
| RNumber (n : number)
| RArray (items : list ReactNode)
| RHost (tag : string) (className : string) (children : list ReactNode)
| RNavTab (key : string) (to : string) (label icon : ReactNode)
          (isBeta isLoading : option bool) (rightContent : ReactNode).

(** [ToBoolean] on a node. *)
Definition truthy (v : ReactNode) : bool :=
  match v with
  | RUndefined | RNull => false
  | RBool b => b
  | RString s => string_truthy s
  | RNumber n => number_truthy n
  | RArray _ | RHost _ _ _ | RNavTab _ _ _ _ _ _ _ => true
  end.

(** [a && b]: the left operand when it is falsy, else the right one. *)
Definition js_and (a b : ReactNode) : ReactNode :=
  if truthy a then b else a.

(** What React draws for one child: arrays are flattened, [undefined],
    [null], booleans and the empty string draw nothing, every other
    string and every number (also [0] and [NaN]) is a text node, and an
    element is itself. *)
Fixpoint drawn (v : ReactNode) : list ReactNode :=
  match v with
  | RUndefined | RNull | RBool _ => []
  | RString s => if string_truthy s then [v] else []
  | RNumber _ => [v]
  | RArray items => flat_map drawn items
  | RHost _ _ _ | RNavTab _ _ _ _ _ _ _ => [v]
  end.

Definition drawn_children (cs : list ReactNode) : list ReactNode :=
  flat_map drawn cs.

Definition is_element (v : ReactNode) : bool :=
  match v with
  | RHost _ _ _ | RNavTab _ _ _ _ _ _ _ => true
  | _ => false
  end.

Definition is_NavTab (v : ReactNode) : bool :=
  match v with
  | RNavTab _ _ _ _ _ _ _ => true
  | _ => false
  end.

Definition is_number (v : ReactNode) : bool :=
  match v with
  | RNumber _ => true
  | _ => false
  end.

End React.
Import React.

(* ===================================================================== *)
(** ** Class names *)
(* ===================================================================== *)

Module ClassName.

(** Modelled from the spec: the external class-name merging utility, which
    combines the base classes with an optional caller override.  It is the
    [clsx] package, here on arguments of type [string | undefined]: every
    truthy argument is appended, separated from what precedes it by one
    space. *)
Definition clsx_step (str : string) (arg : option string) : string :=
  match arg with
  | Some x =>
      if string_truthy x
      then (if string_truthy str then str +:+ " " else str) +:+ x
      else str
  | None => str
  end.

Definition clsx (args : list (option string)) : string :=
  fold_left clsx_step args "".

(** ASCII whitespace separates the tokens of a [class] attribute. *)
Definition is_space (c : ascii) : bool :=
  match nat_of_ascii c with
  | 9 | 10 | 12 | 13 | 32 => true
  | _ => false
  end.

Definition flush (cur : string) : list string :=
  if string_truthy cur then [cur] else [].

(** [tokens cur s]: the tokens of [s], the first of them prefixed by the
    token [cur] read so far. *)
Fixpoint tokens (cur : string) (s : string) : list string :=
  match s with
  | EmptyString => flush cur
  | String c s' =>
      if is_space c
      then flush cur ++ tokens "" s'
      else tokens (cur +:+ String c "") s'
  end.

(** The class set of an element, as the DOM's [classList] lists it. *)
Definition class_list (className : string) : list string :=
  tokens "" className.

End ClassName.
Import ClassName.

(* ===================================================================== *)
(** ** container.tsx *)
(* ===================================================================== *)

Module Layout.

(** One entry of the [labels] prop. *)
Record TabDescriptor : Type := mkTab {
  tab_label : ReactNode;
  tab_to : string;
  tab_icon : ReactNode;
  tab_isBeta : option bool;
  tab_isLoading : option bool;
  tab_rightContent : ReactNode
}.

(** [ContainerProps].  An optional prop that is left out is [undefined]:
    [RUndefined] for a node, [None] for [labels] and [className]. *)
Record ContainerProps : Type := mkProps {
  label : ReactNode;
  labels : option (list TabDescriptor);
  children : ReactNode;
  className : option string
}.

Definition base_class : string :=
  "bg-base-secondary border border-neutral-600 rounded-xl flex flex-col h-full".
Definition tab_strip_class : string := "flex text-xs h-[36px]".
Definition label_bar_class : string :=
  "px-2 h-[36px] border-b border-neutral-600 text-xs flex items-center".
Definition content_class : string := "overflow-hidden flex-grow rounded-b-xl".

(** The callback of [labels.map]: one [<NavTab>] per descriptor, keyed by
    [to]. *)
Definition NavTab (d : TabDescriptor) : ReactNode :=
  RNavTab (tab_to d) (tab_to d) (tab_label d) (tab_icon d)
          (tab_isBeta d) (tab_isLoading d) (tab_rightContent d).

(** [labels && <div ...>{labels.map(...)}</div>] *)
Definition tab_strip_slot (p : ContainerProps) : completion ReactNode :=
  if array_truthy (labels p)
  then tabs ← Array_map (labels p) NavTab;
       mret (RHost "div" tab_strip_class [RArray tabs])
  else mret RUndefined.

(** [!labels && label && <div ...>{label}</div>] *)
Definition label_bar_slot (p : ContainerProps) : completion ReactNode :=
  if negb (array_truthy (labels p))
  then mret (js_and (label p) (RHost "div" label_bar_class [label p]))
  else mret (RBool false).

Definition content_slot (p : ContainerProps) : ReactNode :=
  RHost "div" content_class [children p].

Definition Container (p : ContainerProps) : completion ReactNode :=
  let cls := clsx [Some base_class; className p] in
  c1 ← tab_strip_slot p;
  c2 ← label_bar_slot p;
  mret (RHost "div" cls [c1; c2; content_slot p]).


(** *** Reading the render tree *)

(** The nodes React draws directly under the root element. *)
Definition root_children (t : ReactNode) : list ReactNode :=
  match t with
  | RHost _ _ cs => drawn_children cs
  | _ => []
  end.

Definition root_elements (t : ReactNode) : list ReactNode :=
  List.filter is_element (root_children t).

Definition root_class (t : ReactNode) : string :=
  match t with
  | RHost _ c _ => c
  | _ => ""
  end.

Definition host_children (v : ReactNode) : list ReactNode :=
  match v with
  | RHost _ _ cs => cs
  | _ => []
  end.

Definition has_class (c : string) (v : ReactNode) : bool :=
  match v with
  | RHost _ c' _ => String.eqb c c'
  | _ => false
  end.

Definition is_tab_strip : ReactNode -> bool := has_class tab_strip_class.
Definition is_label_bar : ReactNode -> bool := has_class label_bar_class.
Definition is_header (v : ReactNode) : bool := is_tab_strip v || is_label_bar v.

Definition tab_strips (t : ReactNode) : list ReactNode :=
  List.filter is_tab_strip (root_children t).
Definition label_bars (t : ReactNode) : list ReactNode :=
  List.filter is_label_bar (root_children t).
Definition header_regions (t : ReactNode) : list ReactNode :=
  List.filter is_header (root_children t).

Definition has_header (t : ReactNode) : bool :=
  match header_regions t with
  | [] => false
  | _ :: _ => true
  end.

(** The tab elements drawn inside the tab strips of the tree. *)
Definition tab_elements (t : ReactNode) : list ReactNode :=
  flat_map (fun strip => drawn_children (host_children strip)) (tab_strips t).

(** The header mode: a tab strip with its tab elements, a static bar with
    its content, or no header. *)
Inductive HeaderMode : Type :=
| Tabs (tabs : list ReactNode)
| Static (content : list ReactNode)
| NoHeader.

(** The mode a render tree shows. *)
Definition header_mode (t : ReactNode) : HeaderMode :=
  match header_regions t with
  | [] => NoHeader
  | h :: _ =>
      if is_tab_strip h
      then Tabs (drawn_children (host_children h))
      else Static (host_children h)
  end.

(** A prop is supplied when it is not [undefined]. *)
Definition supplied (v : ReactNode) : bool :=
  match v with
  | RUndefined => false
  | _ => true
  end.

(** The header mode in the words of the specification: tabs if [labels] is
    present and non-empty, else the label if [label] is supplied, else
    none. *)
Definition spec_header_mode (p : ContainerProps) : HeaderMode :=
  match labels p with
  | Some (d :: ds) => Tabs (List.map NavTab (d :: ds))
  | _ => if supplied (label p) then Static [label p] else NoHeader
  end.

(** The condition under which the specification expects a header. *)
Definition spec_has_header (p : ContainerProps) : bool :=
  match labels p with
  | Some (_ :: _) => true
  | _ => supplied (label p)
  end.

Definition with_label (l : ReactNode) (p : ContainerProps) : ContainerProps :=
  mkProps l (labels p) (children p) (className p).

(** The tree the component returns when [labels] is an array. *)
Definition tabbed_tree (p : ContainerProps) (ls : list TabDescriptor)
  : ReactNode :=
  RHost "div" (clsx [Some base_class; className p])
    [RHost "div" tab_strip_class [RArray (List.map NavTab ls)];
     RBool false;
     content_slot p].

(** The tree the component returns when [labels] is [undefined]. *)
Definition untabbed_tree (p : ContainerProps) : ReactNode :=
  RHost "div" (clsx [Some base_class; className p])
    [RUndefined;
     js_and (label p) (RHost "div" label_bar_class [label p]);
     content_slot p].

(** The claims of the specification that the code does not meet, as they
    are written. *)
Definition header_iff_as_specified (p : ContainerProps) : Prop :=
  exists t, Container p = Ok t /\
    (has_header t = true <-> spec_has_header p = true) /\
    (has_header t = false -> root_children t = [content_slot p]).

Definition header_mode_as_specified (p : ContainerProps) : Prop :=
  exists t, Container p = Ok t /\ header_mode t = spec_header_mode p.

Definition static_label_as_specified (p : ContainerProps) : Prop :=
  labels p = None -> supplied (label p) = true ->
  exists t, Container p = Ok t /\
    header_regions t = [RHost "div" label_bar_class [label p]] /\
    tab_elements t = [].

End Layout.
Import Layout.

(* ===================================================================== *)
(** ** Structural comparison of render trees *)
(* ===================================================================== *)

Module Compare.

Definition number_eqb (a b : number) : bool :=
  match a, b with
  | NaN, NaN => true
  | Int x, Int y => (x =? y)%Z
  | _, _ => false
  end.

Definition flag_eqb (a b : option bool) : bool :=
  match a, b with
  | None, None => true
  | Some x, Some y => Bool.eqb x y
  | _, _ => false
  end.

Section ListEqb.
Context {A : Type} (eqb : A -> A -> bool).

Fixpoint list_eqb (xs ys : list A) : bool :=
  match xs, ys with
  | [], [] => true
  | x :: xs', y :: ys' => eqb x y && list_eqb xs' ys'
  | _, _ => false
  end.

End ListEqb.

(** Two trees are structurally identical when they have the same shape
    and the same data at every position. *)
Fixpoint node_eqb (a b : ReactNode) {struct a} : bool :=
  match a, b with
  | RUndefined, RUndefined => true
  | RNull, RNull => true
  | RBool x, RBool y => Bool.eqb x y
  | RString x, RString y => String.eqb x y
  | RNumber x, RNumber y => number_eqb x y
  | RArray xs, RArray ys => list_eqb node_eqb xs ys
  | RHost t c xs, RHost t' c' ys =>
      String.eqb t t' && String.eqb c c' && list_eqb node_eqb xs ys
  | RNavTab k t l i b1 b2 r, RNavTab k' t' l' i' b1' b2' r' =>
      String.eqb k k' && String.eqb t t' && node_eqb l l' && node_eqb i i'
      && flag_eqb b1 b1' && flag_eqb b2 b2' && node_eqb r r'
  | _, _ => false
  end.

Definition render_eqb (a b : completion ReactNode) : bool :=
  match a, b with
  | Ok x, Ok y => node_eqb x y
  | TypeError, TypeError => true
  | _, _ => false
  end.

End Compare.
Import Compare.

(* ===================================================================== *)
(** ** env.sh *)
(* ===================================================================== *)

Module EnvSh.

Definition LF : ascii := ascii_of_nat 10.

(** The lines of a text: each ends at a line feed; a last line without one
    counts when it is not empty. *)
Fixpoint lines_from (cur : string) (s : string) : list string :=
  match s with
  | EmptyString => if string_truthy cur then [cur] else []
  | String c s' =>
      if Ascii.eqb c LF
      then cur :: lines_from "" s'
      else lines_from (cur +:+ String c "") s'
  end.

Definition lines (text : string) : list string := lines_from "" text.

(** What a command prints for a list of lines. *)
Fixpoint unlines (ls : list string) : string :=
  match ls with
  | [] => ""
  | l :: ls' => l +:+ String LF (unlines ls')
  end.

(** [pat] occurs in [s]. *)
Fixpoint contains (pat s : string) : bool :=
  String.prefix pat s ||
  match s with
  | EmptyString => false
  | String _ s' => contains pat s'
  end.

(** A text that every [grep] takes as text in every locale: no NUL and
    no byte above 127. *)
Definition is_text_char (c : ascii) : bool :=
  Nat.ltb 0 (nat_of_ascii c) && Nat.ltb (nat_of_ascii c) 128.

Fixpoint ascii_text (s : string) : bool :=
  match s with
  | EmptyString => true
  | String c s' => is_text_char c && ascii_text s'
  end.


(** [grep PATTERN FILE] for a pattern without special characters: the
    lines of the file in which the pattern occurs; nothing on standard
    output when the file cannot be read.  This is what [grep] prints for
    a [text_file]; what it prints for a matching line of any other file
    depends on the implementation and the locale, and every statement
    below about a matching line assumes [text_file]. *)
Definition grep (pat : string) (file : option string) : list string :=
  match file with
  | Some text => List.filter (contains pat) (lines text)
  | None => []
  end.

Fixpoint after_first (d : ascii) (s : string) : option string :=
  match s with
  | EmptyString => None
  | String c s' => if Ascii.eqb c d then Some s' else after_first d s'
  end.

(** [cut -d D -f2-] on one line: what follows the first delimiter; a line
    without delimiter is printed whole. *)
Definition cut_f2 (d : ascii) (line : string) : string :=
  default line (after_first d line).

(** [$(...)] drops every trailing line feed of the output. *)
Fixpoint command_substitution (out : string) : string :=
  match out with
  | EmptyString => ""
  | String c out' =>
      let rest := command_substitution out' in
      if Ascii.eqb c LF && negb (string_truthy rest) then "" else String c rest
  end.

(** ["$(grep NAME eloo/.env | cut -d '=' -f2-)"] *)
Definition extract (name : string) (fs : gmap string string) : string :=
  command_substitution
    (unlines (List.map (cut_f2 "=") (grep name (fs !! "eloo/.env")))).

(** [export NAME=VALUE] *)
Definition export (name value : string) (env : gmap string string)
  : gmap string string :=
  <[name := value]> env.

(** The script, run with the files [fs] (by path relative to the working
    directory) in the environment [env]; the result is the environment
    after it. *)
Definition env_sh (fs : gmap string string) (env : gmap string string)
  : gmap string string :=
  let env := export "LOG_LEVEL" "ERROR" env in
  let env := export "ANTHROPIC_API_KEY" (extract "ANTHROPIC_API_KEY" fs) env in
  env.



(** A line feed does not occur in [s]. *)
Fixpoint single_line (s : string) : bool :=
  match s with
  | EmptyString => true
  | String c s' => negb (Ascii.eqb c LF) && single_line s'
  end.

End EnvSh.
Import EnvSh.

(* ===================================================================== *)
(** ** Further readings of the two programs *)
(* ===================================================================== *)

Module Views.

Definition with_children (c : ReactNode) (p : ContainerProps)
  : ContainerProps :=
  mkProps (label p) (labels p) c (className p).

Definition with_className (cn : option string) (p : ContainerProps)
  : ContainerProps :=
  mkProps (label p) (labels p) (children p) cn.

(** The React key of a tab element. *)
Definition nav_key (v : ReactNode) : option string :=
  match v with
  | RNavTab k _ _ _ _ _ _ => Some k
  | _ => None
  end.

(** The last character of [s] is a line feed. *)
Fixpoint ends_with_LF (s : string) : bool :=
  match s with
  | EmptyString => false
  | String c EmptyString => Ascii.eqb c LF
  | String _ s' => ends_with_LF s'
  end.

(** *** [Container] on shared props

    The caller holds the [labels] array as an object on the heap and
    passes a reference to it, on every render the same one; the other
    props are immutable values. *)
Record PropsRef : Type := mkPropsRef {
  ref_label : ReactNode;
  ref_labels : option positive;
  ref_children : ReactNode;
  ref_className : option string
}.

(** A computation that may read and write the heap of arrays and may
    throw. *)
Definition Render (A : Type) : Type :=
  gmap positive (list TabDescriptor) ->
  completion A * gmap positive (list TabDescriptor).

#[export] Instance render_ret : MRet Render := fun _ a h => (Ok a, h).
#[export] Instance render_bind : MBind Render := fun _ _ k m h =>
  match m h with
  | (Ok a, h') => k a h'
  | (TypeError, h') => (TypeError, h')
  end.

(** [ToBoolean] on a reference or [undefined]. *)
Definition ref_truthy (v : option positive) : bool :=
  match v with
  | Some _ => true
  | None => false
  end.

(** [recv.map(f)] through a reference: the array is read and a new array
    is returned; the array of the receiver is not written.  A reference
    always points to an array; one that does not is treated as a
    [TypeError]. *)
Definition Array_map_ref {B} (recv : option positive)
    (f : TabDescriptor -> B) : Render (list B) :=
  fun h =>
    match recv with
    | Some l =>
        match h !! l with
        | Some xs => (Ok (List.map f xs), h)
        | None => (TypeError, h)
        end
    | None => (TypeError, h)
    end.

(** The body of [Container], statement by statement as in [Container]
    above, run against the heap. *)
Definition Container_on_heap (p : PropsRef) : Render ReactNode :=
  let cls := clsx [Some base_class; ref_className p] in
  c1 ← (if ref_truthy (ref_labels p)
        then tabs ← Array_map_ref (ref_labels p) NavTab;
             mret (RHost "div" tab_strip_class [RArray tabs])
        else mret RUndefined);
  c2 ← (if negb (ref_truthy (ref_labels p))
        then mret (js_and (ref_label p)
                     (RHost "div" label_bar_class [ref_label p]))
        else mret (RBool false));
  mret (RHost "div" cls [c1; c2; RHost "div" content_class [ref_children p]]).

(** The configuration a reference stands for in a heap. *)
Definition resolve (h : gmap positive (list TabDescriptor)) (p : PropsRef)
  : option ContainerProps :=
  match ref_labels p with
  | Some l =>
      match h !! l with
      | Some xs =>
          Some (mkProps (ref_label p) (Some xs) (ref_children p)
                  (ref_className p))
      | None => None
      end
  | None =>
      Some (mkProps (ref_label p) None (ref_children p) (ref_className p))
  end.

End Views.
Import Views.

(* ===================================================================== *)
(** ** Properties of [Container] *)
(* ===================================================================== *)

Lemma Container_tabbed (p : ContainerProps) (ls : list TabDescriptor) :
  labels p = Some ls -> Container p = Ok (tabbed_tree p ls).
Proof.
  intros H. unfold Container, tab_strip_slot, label_bar_slot.
  rewrite H. reflexivity.
Qed.

Lemma Container_untabbed (p : ContainerProps) :
  labels p = None -> Container p = Ok (untabbed_tree p).
Proof.
  intros H. unfold Container, tab_strip_slot, label_bar_slot.
  rewrite H. reflexivity.
Qed.

Lemma drawn_NavTabs (ls : list TabDescriptor) :
  drawn_children (List.map NavTab ls) = List.map NavTab ls.
Proof.
  unfold drawn_children.
  induction ls as [|d ls IH]; simpl; [reflexivity|].
  now rewrite IH.
Qed.

(** What the label slot draws: the bar for a truthy label, the label
    itself for a falsy number, nothing otherwise. *)
Lemma drawn_label_slot (l : ReactNode) :
  drawn (js_and l (RHost "div" label_bar_class [l])) =
  if truthy l then [RHost "div" label_bar_class [l]]
  else if is_number l then [l] else [].
Proof.
  unfold js_and.
  destruct l as [| |b|s|n|xs|t c xs|k t l i b1 b2 r]; simpl; try reflexivity.
  - destruct b; reflexivity.
  - destruct s; reflexivity.
  - destruct (number_truthy n); reflexivity.
Qed.

Lemma root_children_tabbed (p : ContainerProps) (ls : list TabDescriptor) :
  root_children (tabbed_tree p ls) =
  [RHost "div" tab_strip_class [RArray (List.map NavTab ls)]; content_slot p].
Proof. reflexivity. Qed.

Lemma root_children_untabbed (p : ContainerProps) :
  root_children (untabbed_tree p) =
  (if truthy (label p) then [RHost "div" label_bar_class [label p]]
   else if is_number (label p) then [label p] else [])
  ++ [content_slot p].
Proof.
  unfold untabbed_tree, root_children, drawn_children.
  cbn [flat_map]. rewrite drawn_label_slot. reflexivity.
Qed.

Lemma header_regions_tabbed (p : ContainerProps) (ls : list TabDescriptor) :
  header_regions (tabbed_tree p ls) =
  [RHost "div" tab_strip_class [RArray (List.map NavTab ls)]].
Proof. reflexivity. Qed.

Lemma header_mode_tabbed (p : ContainerProps) (ls : list TabDescriptor) :
  header_mode (tabbed_tree p ls) = Tabs (List.map NavTab ls).
Proof.
  unfold header_mode. rewrite header_regions_tabbed.
  cbn [is_tab_strip has_class host_children].
  change (String.eqb tab_strip_class tab_strip_class) with true.
  cbn iota. f_equal.
  unfold drawn_children. cbn [flat_map drawn]. rewrite app_nil_r.
  apply drawn_NavTabs.
Qed.

Lemma header_regions_untabbed (p : ContainerProps) :
  header_regions (untabbed_tree p) =
  if truthy (label p) then [RHost "div" label_bar_class [label p]] else [].
Proof.
  unfold header_regions. rewrite root_children_untabbed.
  destruct (truthy (label p)); [reflexivity|].
  destruct (label p); reflexivity.
Qed.

Lemma root_elements_untabbed (p : ContainerProps) :
  root_elements (untabbed_tree p) =
  (if truthy (label p) then [RHost "div" label_bar_class [label p]] else [])
  ++ [content_slot p].
Proof.
  unfold root_elements. rewrite root_children_untabbed.
  destruct (truthy (label p)); [reflexivity|].
  destruct (label p); reflexivity.
Qed.

Lemma tab_strips_untabbed (p : ContainerProps) :
  tab_strips (untabbed_tree p) = [].
Proof.
  unfold tab_strips. rewrite root_children_untabbed.
  destruct (truthy (label p)); [reflexivity|].
  destruct (label p); reflexivity.
Qed.


(** *** Header presence *)

(** C1, as amended.  A header region is rendered exactly when [labels] is
    an array (the empty one included) or, with [labels] left out, [label]
    is truthy.  The elements under the root are the header regions, if
    any, followed by the content region; without a header the content
    region is the only element, and, when [label] is no number, the only
    thing drawn at all. *)
Theorem header_region_iff (p : ContainerProps) :
  exists t, Container p = Ok t /\
    has_header t = array_truthy (labels p) || truthy (label p) /\
    root_elements t =
      (if has_header t then header_regions t ++ [content_slot p]
       else [content_slot p]) /\
    (if has_header t || is_number (label p) then True
     else root_children t = [content_slot p]).
Proof.
  destruct (labels p) as [ls|] eqn:Hls.
  - exists (tabbed_tree p ls). split; [now apply Container_tabbed|].
    repeat split; reflexivity.
  - exists (untabbed_tree p). split; [now apply Container_untabbed|].
    unfold has_header.
    rewrite header_regions_untabbed, root_elements_untabbed,
      root_children_untabbed.
    destruct (truthy (label p)); simpl; [repeat split|].
    destruct (is_number (label p)); repeat split.
Qed.

(** C1: with [labels] the empty array and no [label], the specification
    expects no header, yet the empty tab strip is rendered. *)
Lemma header_iff_fails_on_empty_labels :
  ~ header_iff_as_specified
      (mkProps RUndefined (Some []) (RString "body") None).
Proof.
  intros (t & Ht & Hiff & _).
  cbv in Ht. injection Ht as <-.
  destruct Hiff as [Hiff _].
  specialize (Hiff eq_refl). discriminate Hiff.
Qed.

(** *** Header mode *)

(** C2, as amended.  The mode is [Tabs] when [labels] is an array, even an
    empty one; otherwise [Static] when [label] is truthy; otherwise there
    is no header.  With [labels] empty the tab strip has no tab, and no
    static bar is rendered whatever [label] is. *)
Theorem header_mode_computed (p : ContainerProps) :
  exists t, Container p = Ok t /\
    header_mode t =
      match labels p with
      | Some ls => Tabs (List.map NavTab ls)
      | None => if truthy (label p) then Static [label p] else NoHeader
      end /\
    (if array_truthy (labels p) then label_bars t = [] else tab_strips t = []).
Proof.
  destruct (labels p) as [ls|] eqn:Hls.
  - exists (tabbed_tree p ls). split; [now apply Container_tabbed|].
    split; [apply header_mode_tabbed|reflexivity].
  - exists (untabbed_tree p). split; [now apply Container_untabbed|].
    split; [|apply tab_strips_untabbed].
    unfold header_mode. rewrite header_regions_untabbed.
    destruct (truthy (label p)); reflexivity.
Qed.

(** C2: with [labels] the empty array and a [label], the specification
    expects the static label, yet the mode is an empty tab strip. *)
Lemma header_mode_fails_on_empty_labels :
  ~ header_mode_as_specified
      (mkProps (RString "Settings") (Some []) (RString "body") None).
Proof.
  intros (t & Ht & Hmode).
  cbv in Ht. injection Ht as <-.
  discriminate Hmode.
Qed.

(** *** Precedence of [labels] over [label] *)

(** C3.  When [labels] is a non-empty array and [label] is set as well,
    the only header is the tab strip made from [labels], what is drawn
    under the root is that strip and the content region, no static bar
    exists, and the tree is the same whatever [label] is: the label does
    not reach the output. *)
Theorem labels_take_precedence
    (p : ContainerProps) (ls : list TabDescriptor) :
  labels p = Some ls -> ls <> [] -> supplied (label p) = true ->
  exists t, Container p = Ok t /\
    header_mode t = Tabs (List.map NavTab ls) /\
    root_children t =
      [RHost "div" tab_strip_class [RArray (List.map NavTab ls)];
       content_slot p] /\
    label_bars t = [] /\
    forall l' : ReactNode, Container (with_label l' p) = Ok t.
Proof.
  intros Hls _ _.
  exists (tabbed_tree p ls). split; [now apply Container_tabbed|].
  split; [apply header_mode_tabbed|].
  repeat split.
  intros l'. now rewrite (Container_tabbed (with_label l' p) ls).
Qed.

Lemma labels_take_precedence_witness :
  exists t,
    Container (mkProps (RString "Settings")
                 (Some [mkTab (RString "Files") "/files" RUndefined
                          None None RUndefined])
                 (RString "body") None) = Ok t /\
    label_bars t = [].
Proof.
  destruct (labels_take_precedence
              (mkProps (RString "Settings")
                 (Some [mkTab (RString "Files") "/files" RUndefined
                          None None RUndefined])
                 (RString "body") None)
              [mkTab (RString "Files") "/files" RUndefined None None RUndefined])
    as (t & Ht & _ & _ & Hbars & _).
  - reflexivity.
  - discriminate.
  - reflexivity.
  - exists t. split; assumption.
Defined.

(** *** Tabs *)

(** C4.  For a non-empty [labels] of length N the tree has one tab strip,
    in which exactly N tab elements are drawn; the i-th of them is keyed
    by the [to] of the i-th descriptor and carries that descriptor's
    [to], [label], [icon], [isBeta], [isLoading] and [rightContent]. *)
Theorem tabs_follow_labels
    (p : ContainerProps) (ls : list TabDescriptor) :
  labels p = Some ls -> ls <> [] ->
  exists t, Container p = Ok t /\
    length (tab_strips t) = 1 /\
    length (tab_elements t) = length ls /\
    List.filter is_NavTab (tab_elements t) = tab_elements t /\
    forall (i : nat) (d : TabDescriptor), ls !! i = Some d ->
      tab_elements t !! i =
        Some (RNavTab (tab_to d) (tab_to d) (tab_label d) (tab_icon d)
                (tab_isBeta d) (tab_isLoading d) (tab_rightContent d)).
Proof.
  intros Hls _.
  exists (tabbed_tree p ls). split; [now apply Container_tabbed|].
  assert (Htabs : tab_elements (tabbed_tree p ls) = List.map NavTab ls).
  { unfold tab_elements.
    change (tab_strips (tabbed_tree p ls))
      with [RHost "div" tab_strip_class [RArray (List.map NavTab ls)]].
    cbn [flat_map host_children]. rewrite app_nil_r.
    unfold drawn_children. cbn [flat_map drawn]. rewrite app_nil_r.
    apply drawn_NavTabs. }
  rewrite Htabs. repeat split.
  - apply length_map.
  - clear. induction ls as [|d ls IH]; simpl; [reflexivity|].
    now rewrite IH.
  - intros i d Hi.
    change (List.map NavTab ls) with (NavTab <$> ls).
    rewrite list_lookup_fmap, Hi. reflexivity.
Qed.

Lemma tabs_follow_labels_witness :
  exists t,
    Container (mkProps RUndefined
                 (Some [mkTab (RString "Files") "/files" RUndefined
                          None None RUndefined;
                        mkTab (RString "Term") "/term" (RString "*")
                          (Some true) (Some false) (RString "3")])
                 (RString "body") None) = Ok t /\
    length (tab_elements t) = 2.
Proof.
  destruct (tabs_follow_labels
              (mkProps RUndefined
                 (Some [mkTab (RString "Files") "/files" RUndefined
                          None None RUndefined;
                        mkTab (RString "Term") "/term" (RString "*")
                          (Some true) (Some false) (RString "3")])
                 (RString "body") None)
              [mkTab (RString "Files") "/files" RUndefined None None RUndefined;
               mkTab (RString "Term") "/term" (RString "*")
                 (Some true) (Some false) (RString "3")])
    as (t & Ht & _ & Hlen & _).
  - reflexivity.
  - discriminate.
  - exists t. split; assumption.
Defined.

(** *** Static label *)

(** C6, as amended.  With [labels] left out and a truthy [label], the one
    header region is the static bar, whose only child is [label], and no
    tab strip and no tab element is rendered. *)
Theorem static_label_rendered (p : ContainerProps) :
  labels p = None -> truthy (label p) = true ->
  exists t, Container p = Ok t /\
    header_regions t = [RHost "div" label_bar_class [label p]] /\
    header_mode t = Static [label p] /\
    tab_strips t = [] /\
    tab_elements t = [].
Proof.
  intros Hls Hl.
  exists (untabbed_tree p). split; [now apply Container_untabbed|].
  unfold header_mode, tab_elements.
  rewrite header_regions_untabbed, tab_strips_untabbed, Hl.
  repeat split.
Qed.

Lemma static_label_rendered_witness :
  exists t,
    Container (mkProps (RString "Settings") None (RString "body") None)
      = Ok t /\
    header_mode t = Static [RString "Settings"].
Proof.
  destruct (static_label_rendered
              (mkProps (RString "Settings") None (RString "body") None))
    as (t & Ht & _ & Hmode & _).
  - reflexivity.
  - reflexivity.
  - exists t. split; assumption.
Defined.

(** C6: an empty string is a supplied label, yet no header is rendered
    for it. *)
Lemma static_label_fails_on_empty_string :
  ~ static_label_as_specified
      (mkProps (RString "") None (RString "body") None).
Proof.
  intros H.
  destruct (H eq_refl eq_refl) as (t & Ht & Hregions & _).
  cbv in Ht. injection Ht as <-.
  discriminate Hregions.
Qed.

(** *** Exclusive headers *)

(** C10.  At most one header region is rendered, and never both kinds:
    with [labels] an array (empty or not) there is no static bar, and
    without [labels] there is no tab strip. *)
Theorem headers_exclusive (p : ContainerProps) :
  exists t, Container p = Ok t /\
    (tab_strips t = [] \/ label_bars t = []) /\
    length (header_regions t) <= 1 /\
    (if array_truthy (labels p) then label_bars t = []
     else tab_strips t = []).
Proof.
  destruct (labels p) as [ls|] eqn:Hls.
  - exists (tabbed_tree p ls). split; [now apply Container_tabbed|].
    repeat split; [now right | simpl; lia].
  - exists (untabbed_tree p). split; [now apply Container_untabbed|].
    rewrite header_regions_untabbed, tab_strips_untabbed.
    repeat split; [now left|].
    destruct (truthy (label p)); simpl; lia.
Qed.

(** *** Totality *)

(** C8.  Rendering never throws: for every configuration, duplicate
    destinations included, the component returns a tree.  The one call
    that could throw, [labels.map], is only reached when [labels] is an
    array. *)
Theorem Container_total (p : ContainerProps) :
  completes (Container p) = true /\
  Container p <> TypeError /\
  exists t, Container p = Ok t.
Proof.
  destruct (labels p) as [ls|] eqn:Hls.
  - rewrite (Container_tabbed p ls Hls). repeat split; [discriminate|eauto].
  - rewrite (Container_untabbed p Hls). repeat split; [discriminate|eauto].
Qed.

(** Two tabs with the same destination are both rendered, under the same
    key. *)
Example duplicate_destinations_render :
  Container (mkProps RUndefined
               (Some [mkTab (RString "A") "/x" RUndefined None None RUndefined;
                      mkTab (RString "B") "/x" RUndefined None None RUndefined])
               RNull None)
  = Ok (RHost "div" base_class
          [RHost "div" tab_strip_class
             [RArray
                [RNavTab "/x" "/x" (RString "A") RUndefined None None RUndefined;
                 RNavTab "/x" "/x" (RString "B") RUndefined None None RUndefined]];
           RBool false;
           RHost "div" content_class [RNull]]).
Proof. reflexivity. Qed.

(* ===================================================================== *)
(** ** The root element's classes *)
(* ===================================================================== *)

(** Tokens do not cross a space: the tokens of [a], a space and [b] are
    those of [a] followed by those of [b]. *)
Lemma tokens_app_space (a b cur : string) :
  tokens cur (a +:+ String " " b) = tokens cur a ++ tokens "" b.
Proof.
  revert cur. induction a as [|c a IH]; intros cur.
  - reflexivity.
  - change (String c a +:+ String " " b) with (String c (a +:+ String " " b)).
    cbn [tokens].
    destruct (is_space c).
    + rewrite IH. apply app_assoc.
    + apply IH.
Qed.

Lemma append_assoc (a b c : string) : (a +:+ b) +:+ c = a +:+ (b +:+ c).
Proof.
  induction a as [|x a IH]; [reflexivity|].
  change (String x (a +:+ b) +:+ c = String x (a +:+ (b +:+ c))).
  change (String x ((a +:+ b) +:+ c) = String x (a +:+ (b +:+ c))).
  now rewrite IH.
Qed.

Lemma append_nil_r (a : string) : a +:+ "" = a.
Proof.
  induction a as [|x a IH]; [reflexivity|].
  change (String x (a +:+ "") = String x a). now rewrite IH.
Qed.

Lemma clsx_base_override (base cn : string) :
  string_truthy base = true ->
  clsx [Some base; Some cn] =
  if string_truthy cn then base +:+ String " " cn else base.
Proof.
  intros Hb. unfold clsx. cbn [fold_left clsx_step string_truthy].
  rewrite Hb. destruct (string_truthy cn); [|reflexivity].
  change ("" +:+ base) with base. rewrite Hb.
  now rewrite append_assoc.
Qed.

Lemma class_list_merge (cn : string) :
  class_list (clsx [Some base_class; Some cn]) =
  class_list base_class ++ class_list cn.
Proof.
  rewrite clsx_base_override by reflexivity.
  unfold class_list.
  destruct cn as [|c cn]; cbn [string_truthy].
  - cbn [tokens flush string_truthy]. now rewrite app_nil_r.
  - apply tokens_app_space.
Qed.

(** C5.  With a caller-supplied [className] the class list of the root
    element is the seven base classes followed by the classes of the
    override: every base class and every class of the override is in it. *)
Theorem className_augments_base (p : ContainerProps) (cn : string) :
  className p = Some cn ->
  exists t, Container p = Ok t /\
    class_list (root_class t) =
      ["bg-base-secondary"; "border"; "border-neutral-600"; "rounded-xl";
       "flex"; "flex-col"; "h-full"] ++ class_list cn /\
    (forall c : string,
        c ∈ ["flex"; "flex-col"; "h-full"; "border"; "border-neutral-600";
             "rounded-xl"; "bg-base-secondary"] ->
        c ∈ class_list (root_class t)) /\
    (forall c : string, c ∈ class_list cn -> c ∈ class_list (root_class t)).
Proof.
  intros Hcn.
  assert (Hroot : exists t, Container p = Ok t /\
            class_list (root_class t) = class_list base_class ++ class_list cn).
  { destruct (labels p) as [ls|] eqn:Hls.
    - exists (tabbed_tree p ls). split; [now apply Container_tabbed|].
      cbn [tabbed_tree root_class]. rewrite Hcn. apply class_list_merge.
    - exists (untabbed_tree p). split; [now apply Container_untabbed|].
      cbn [untabbed_tree root_class]. rewrite Hcn. apply class_list_merge. }
  destruct Hroot as (t & Ht & Hroot). exists t. split; [exact Ht|].
  rewrite Hroot.
  change (class_list base_class)
    with ["bg-base-secondary"; "border"; "border-neutral-600"; "rounded-xl";
          "flex"; "flex-col"; "h-full"].
  split; [reflexivity|]. split.
  - intros c Hc. apply elem_of_app. left.
    rewrite !elem_of_cons in Hc. rewrite !elem_of_cons. tauto.
  - intros c Hc. apply elem_of_app. now right.
Qed.

Lemma className_augments_base_witness :
  exists t,
    Container (mkProps RUndefined None (RString "body") (Some "custom-x"))
      = Ok t /\
    "custom-x" ∈ class_list (root_class t) /\
    "rounded-xl" ∈ class_list (root_class t).
Proof.
  destruct (className_augments_base
              (mkProps RUndefined None (RString "body") (Some "custom-x"))
              "custom-x")
    as (t & Ht & _ & Hbase & Hover).
  - reflexivity.
  - exists t. split; [exact Ht|]. split.
    + apply Hover. vm_compute. apply list_elem_of_here.
    + apply Hbase. rewrite !elem_of_cons. tauto.
Defined.

(* ===================================================================== *)
(** ** Determinism *)
(* ===================================================================== *)

(** Induction on render trees, with the hypothesis available for every
    child of an array or element. *)
Lemma ReactNode_nested_ind (P : ReactNode -> Prop) :
  P RUndefined -> P RNull ->
  (forall b, P (RBool b)) -> (forall s, P (RString s)) ->
  (forall n, P (RNumber n)) ->
  (forall xs, Forall P xs -> P (RArray xs)) ->
  (forall t c xs, Forall P xs -> P (RHost t c xs)) ->
  (forall k t l i b1 b2 r, P l -> P i -> P r -> P (RNavTab k t l i b1 b2 r)) ->
  forall v, P v.
Proof.
  intros Hu Hn Hb Hs Hnum Harr Hhost Hnav.
  fix IH 1.
  intros [| |b|s|n|xs|t c xs|k t l i b1 b2 r].
  - exact Hu.
  - exact Hn.
  - apply Hb.
  - apply Hs.
  - apply Hnum.
  - apply Harr. induction xs as [|x xs IHxs]; constructor; [apply IH|exact IHxs].
  - apply Hhost. induction xs as [|x xs IHxs]; constructor; [apply IH|exact IHxs].
  - apply Hnav; apply IH.
Qed.

Lemma list_eqb_sound {A} (eqb : A -> A -> bool) (xs : list A) :
  Forall (fun x => forall y, eqb x y = true <-> x = y) xs ->
  forall ys, list_eqb eqb xs ys = true <-> xs = ys.
Proof.
  induction 1 as [|x xs Hx _ IH]; intros [|y ys]; cbn [list_eqb];
    try (split; [discriminate|discriminate]); [tauto|].
  rewrite andb_true_iff, Hx, IH.
  split; [intros [-> ->]; reflexivity | intros [= -> ->]; tauto].
Qed.

Lemma number_eqb_sound (a b : number) : number_eqb a b = true <-> a = b.
Proof.
  destruct a as [|x], b as [|y]; cbn [number_eqb];
    try (split; [discriminate|discriminate]); [tauto|].
  rewrite Z.eqb_eq. split; [now intros ->|now intros [= ->]].
Qed.

Lemma flag_eqb_sound (a b : option bool) : flag_eqb a b = true <-> a = b.
Proof.
  destruct a as [[]|], b as [[]|]; cbn; split;
    (discriminate || reflexivity || tauto).
Qed.

(** [node_eqb] decides equality of render trees. *)
Lemma node_eqb_sound (a : ReactNode) :
  forall b, node_eqb a b = true <-> a = b.
Proof.
  induction a as [| |x|x|x|xs IH|t c xs IH|k t l i b1 b2 r IHl IHi IHr]
    using ReactNode_nested_ind;
    intros [| |y|y|y|ys|t' c' ys|k' t' l' i' b1' b2' r']; cbn [node_eqb];
    try (split; [discriminate|discriminate]); try tauto.
  - destruct x, y; cbn; split; (discriminate || reflexivity || tauto).
  - rewrite String.eqb_eq. split; [now intros ->|now intros [= ->]].
  - rewrite number_eqb_sound. split; [now intros ->|now intros [= ->]].
  - rewrite (list_eqb_sound node_eqb xs IH).
    split; [now intros ->|now intros [= ->]].
  - rewrite !andb_true_iff, !String.eqb_eq, (list_eqb_sound node_eqb xs IH).
    split; [intros [[-> ->] ->]; reflexivity | intros [= -> -> ->]; tauto].
  - rewrite !andb_true_iff, !String.eqb_eq, !flag_eqb_sound, IHl, IHi, IHr.
    split.
    + intros [[[[[[-> ->] ->] ->] ->] ->] ->]. reflexivity.
    + intros [= -> -> -> -> -> -> ->]. tauto.
Qed.

Lemma Container_on_heap_run
    (p : PropsRef) (h : gmap positive (list TabDescriptor)) :
  Container_on_heap p h =
  (match resolve h p with
   | Some q => Container q
   | None => TypeError
   end, h).
Proof.
  unfold Container_on_heap, resolve, Container, tab_strip_slot,
    label_bar_slot, Array_map_ref, mbind, render_bind, mret, render_ret.
  destruct (ref_labels p) as [l|]; cbn [ref_truthy negb].
  - destruct (h !! l) as [xs|]; reflexivity.
  - reflexivity.
Qed.

Lemma render_eqb_refl (r : completion ReactNode) : render_eqb r r = true.
Proof.
  destruct r as [t|]; cbn [render_eqb]; [|reflexivity].
  now apply node_eqb_sound.
Qed.

(** C7.  A render reads the heap and never writes it: the heap after a
    render is the heap before it, so nothing is carried from one render
    to the next.  Rendering a second time, on the heap the first render
    left, returns the same completion, and the two trees compare as
    structurally identical.  The result depends on the heap only through
    the array that [labels] points to, and it is what [Container] returns
    for the configuration the reference stands for. *)
Theorem render_twice_identical
    (p : PropsRef) (h : gmap positive (list TabDescriptor)) :
  (Container_on_heap p h).2 = h /\
  (Container_on_heap p (Container_on_heap p h).2).2 = h /\
  (Container_on_heap p (Container_on_heap p h).2).1
    = (Container_on_heap p h).1 /\
  render_eqb (Container_on_heap p h).1
    (Container_on_heap p (Container_on_heap p h).2).1 = true /\
  (forall h' : gmap positive (list TabDescriptor),
      (forall l, ref_labels p = Some l -> h' !! l = h !! l) ->
      (Container_on_heap p h').1 = (Container_on_heap p h).1) /\
  (forall q : ContainerProps,
      resolve h p = Some q -> (Container_on_heap p h).1 = Container q).
Proof.
  rewrite !Container_on_heap_run. cbn [fst snd].
  rewrite ?Container_on_heap_run. cbn [fst snd].
  repeat split.
  - apply render_eqb_refl.
  - intros h' Hh'. rewrite Container_on_heap_run. cbn [fst].
    unfold resolve. destruct (ref_labels p) as [l|]; [|reflexivity].
    now rewrite (Hh' l eq_refl).
  - intros q Hq. now rewrite Hq.
Qed.

(** A render of shared props with two tabs, run twice. *)
Example render_twice_run :
  let p := mkPropsRef (RString "Settings") (Some 1%positive)
             (RString "body") None in
  let h : gmap positive (list TabDescriptor) :=
    {[ 1%positive :=
         [mkTab (RString "Files") "/files" RUndefined None None RUndefined;
          mkTab (RString "Term") "/term" RUndefined None None RUndefined] ]} in
  (Container_on_heap p (Container_on_heap p h).2).1 =
  Ok (RHost "div" base_class
        [RHost "div" tab_strip_class
           [RArray
              [RNavTab "/files" "/files" (RString "Files") RUndefined
                 None None RUndefined;
               RNavTab "/term" "/term" (RString "Term") RUndefined
                 None None RUndefined]];
         RBool false;
         RHost "div" content_class [RString "body"]]).
Proof.
  cbv zeta. rewrite !Container_on_heap_run. cbn [fst snd].
  rewrite ?Container_on_heap_run. cbn [fst snd].
  unfold resolve. cbn [ref_labels]. rewrite lookup_singleton_eq.
  reflexivity.
Qed.

(* ===================================================================== *)
(** ** Properties of env.sh *)
(* ===================================================================== *)

Lemma command_substitution_line (v : string) :
  single_line v = true ->
  command_substitution (v +:+ String LF "") = v.
Proof.
  induction v as [|c v IH]; [reflexivity|].
  cbn [single_line]. rewrite andb_true_iff, negb_true_iff.
  intros [Hc Hv].
  change (String c v +:+ String LF "") with (String c (v +:+ String LF "")).
  cbn [command_substitution]. rewrite (IH Hv), Hc. reflexivity.
Qed.




Example env_sh_run :
  env_sh {[ "eloo/.env" :=
              unlines ["LOG_LEVEL=DEBUG"; "ANTHROPIC_API_KEY=sk-test"] ]} ∅
  = {[ "LOG_LEVEL" := "ERROR"; "ANTHROPIC_API_KEY" := "sk-test" ]}.
Proof.
  apply map_eq. intros x. unfold env_sh, export.
  assert (Hx : extract "ANTHROPIC_API_KEY"
            {[ "eloo/.env" :=
                 unlines ["LOG_LEVEL=DEBUG"; "ANTHROPIC_API_KEY=sk-test"] ]}
          = "sk-test").
  { unfold extract. rewrite lookup_singleton_eq. reflexivity. }
  rewrite Hx.
  rewrite insert_insert_ne by discriminate. reflexivity.
Qed.

(* ===================================================================== *)
(** ** Further properties of [Container] *)
(* ===================================================================== *)

(** X1.  A falsy number given as [label] without [labels] (0 or NaN) gets
    no header: the guard passes the number itself on, and React draws it
    as a text node directly under the root, before the content region. *)
Theorem falsy_number_label_is_drawn_bare (p : ContainerProps) (n : number) :
  labels p = None -> label p = RNumber n -> number_truthy n = false ->
  exists t, Container p = Ok t /\
    header_regions t = [] /\
    root_children t =
      [RNumber n; RHost "div" "overflow-hidden flex-grow rounded-b-xl" [children p]].
Proof.
  intros Hls Hl Hn.
  exists (untabbed_tree p). split; [now apply Container_untabbed|].
  rewrite header_regions_untabbed, root_children_untabbed, Hl.
  cbn [truthy is_number]. rewrite Hn. split; reflexivity.
Qed.

Lemma falsy_number_label_is_drawn_bare_witness :
  exists t,
    Container (mkProps (RNumber (Int 0)) None (RString "body") None) = Ok t /\
    header_regions t = [] /\
    root_children t =
      [RNumber (Int 0);
       RHost "div" "overflow-hidden flex-grow rounded-b-xl" [RString "body"]].
Proof.
  apply (falsy_number_label_is_drawn_bare
           (mkProps (RNumber (Int 0)) None (RString "body") None) (Int 0));
    reflexivity.
Defined.

(** X2.  Whatever the configuration, React draws one or two nodes under
    the root, and the last of them is the content region, whose only
    child is [children]. *)
Theorem content_region_always_last (p : ContainerProps) :
  exists t, Container p = Ok t /\
    1 <= length (root_children t) <= 2 /\
    last (root_children t) =
      Some (RHost "div" "overflow-hidden flex-grow rounded-b-xl" [children p]).
Proof.
  destruct (labels p) as [ls|] eqn:Hls.
  - exists (tabbed_tree p ls). split; [exact (Container_tabbed p ls Hls)|].
    split; [simpl; lia | reflexivity].
  - exists (untabbed_tree p). split; [exact (Container_untabbed p Hls)|].
    rewrite root_children_untabbed.
    destruct (truthy (label p)); [split; [simpl; lia | reflexivity]|].
    destruct (is_number (label p)); (split; [simpl; lia | reflexivity]).
Qed.

(** X3.  The root's [className] is exactly the base class string when no
    override or an empty one is given, and otherwise the base string, one
    space and the override as it was written. *)
Theorem root_class_exact (p : ContainerProps) :
  exists t, Container p = Ok t /\
    root_class t =
      match className p with
      | Some (String c cn) =>
          "bg-base-secondary border border-neutral-600 rounded-xl flex flex-col h-full "
          +:+ String c cn
      | _ =>
          "bg-base-secondary border border-neutral-600 rounded-xl flex flex-col h-full"
      end.
Proof.
  assert (Hcls : clsx [Some base_class; className p] =
            match className p with
            | Some (String c cn) => (base_class +:+ " ") +:+ String c cn
            | _ => base_class
            end).
  { destruct (className p) as [[|c cn]|]; reflexivity. }
  destruct (labels p) as [ls|] eqn:Hls.
  - exists (tabbed_tree p ls). split; [now apply Container_tabbed|].
    cbn [tabbed_tree root_class]. rewrite Hcls.
    destruct (className p) as [[|c cn]|]; reflexivity.
  - exists (untabbed_tree p). split; [now apply Container_untabbed|].
    cbn [untabbed_tree root_class]. rewrite Hcls.
    destruct (className p) as [[|c cn]|]; reflexivity.
Qed.

(** X4.  Whenever [labels] is an array, the empty one included, [label]
    has no effect at all: the render is the same for any two labels, and
    what is drawn under the root is the tab strip and the content region. *)
Theorem label_ignored_with_any_labels
    (p : ContainerProps) (ls : list TabDescriptor) (l1 l2 : ReactNode) :
  labels p = Some ls ->
  Container (with_label l1 p) = Container (with_label l2 p) /\
  exists t, Container (with_label l1 p) = Ok t /\
    root_children t =
      [RHost "div" "flex text-xs h-[36px]" [RArray (List.map NavTab ls)];
       RHost "div" "overflow-hidden flex-grow rounded-b-xl" [children p]].
Proof.
  intros Hls.
  rewrite (Container_tabbed (with_label l1 p) ls Hls).
  rewrite (Container_tabbed (with_label l2 p) ls Hls).
  split; [reflexivity|].
  eexists. split; reflexivity.
Qed.

Lemma label_ignored_with_any_labels_witness :
  Container (with_label (RString "Settings")
               (mkProps RUndefined (Some []) (RString "body") None))
  = Container (with_label (RNumber (Int 0))
                 (mkProps RUndefined (Some []) (RString "body") None)).
Proof.
  apply (label_ignored_with_any_labels
           (mkProps RUndefined (Some []) (RString "body") None) []
           (RString "Settings") (RNumber (Int 0))).
  reflexivity.
Defined.

(** X5.  [children] and [className] never reach the header: replacing
    them leaves the header regions and the tab elements as they were. *)
Theorem header_independent_of_body
    (p : ContainerProps) (c : ReactNode) (cn : option string) :
  exists t t',
    Container p = Ok t /\
    Container (with_children c (with_className cn p)) = Ok t' /\
    header_regions t' = header_regions t /\
    tab_elements t' = tab_elements t.
Proof.
  destruct (labels p) as [ls|] eqn:Hls.
  - exists (tabbed_tree p ls),
      (tabbed_tree (with_children c (with_className cn p)) ls).
    split; [now apply Container_tabbed|].
    split; [now apply Container_tabbed|].
    split; reflexivity.
  - exists (untabbed_tree p),
      (untabbed_tree (with_children c (with_className cn p))).
    split; [now apply Container_untabbed|].
    split; [now apply Container_untabbed|].
    unfold tab_elements. rewrite !header_regions_untabbed, !tab_strips_untabbed.
    split; reflexivity.
Qed.

(* ===================================================================== *)
(** ** Further properties of env.sh *)
(* ===================================================================== *)

Lemma prefix_app (pat a b : string) :
  String.prefix pat a = true -> String.prefix pat (a +:+ b) = true.
Proof.
  revert a. induction pat as [|x pat IH]; intros a.
  - intros _. destruct (a +:+ b); reflexivity.
  - destruct a as [|y a]; [discriminate|].
    change (String y a +:+ b) with (String y (a +:+ b)). cbn [String.prefix].
    destruct (ascii_dec x y); [apply IH|discriminate].
Qed.

Lemma prefix_nil_r (pat : string) :
  String.prefix pat "" = true -> pat = "".
Proof. destruct pat; [reflexivity|discriminate]. Qed.

(** An occurrence in [a] is an occurrence in [a] followed by [b]. *)
Lemma contains_app_r (pat a b : string) :
  contains pat a = true -> contains pat (a +:+ b) = true.
Proof.
  induction a as [|y a IH].
  - cbn [contains]. rewrite orb_false_r. intros H.
    rewrite (prefix_nil_r pat H). destruct b; reflexivity.
  - change (String y a +:+ b) with (String y (a +:+ b)). cbn [contains].
    rewrite !orb_true_iff. intros [H|H].
    + left. now apply (prefix_app pat (String y a) b).
    + right. now apply IH.
Qed.

(** An occurrence in [b] is an occurrence in [a] followed by [b]. *)
Lemma contains_app_l (pat a b : string) :
  contains pat b = true -> contains pat (a +:+ b) = true.
Proof.
  intros H. induction a as [|y a IH]; [exact H|].
  change (String y a +:+ b) with (String y (a +:+ b)). cbn [contains].
  rewrite IH. apply orb_true_r.
Qed.

Lemma contains_cons (pat : string) (c : ascii) (s : string) :
  contains pat s = true -> contains pat (String c s) = true.
Proof. intros H. cbn [contains]. rewrite H. apply orb_true_r. Qed.

(** What occurs in a line of a text occurs in the text. *)
Lemma lines_from_contains (pat : string) (s cur l : string) :
  In l (lines_from cur s) -> contains pat l = true ->
  contains pat (cur +:+ s) = true.
Proof.
  revert cur. induction s as [|c s IH]; intros cur Hin Hl.
  - rewrite append_nil_r. cbn [lines_from] in Hin.
    destruct (string_truthy cur); [|destruct Hin].
    destruct Hin as [<-|[]]. exact Hl.
  - cbn [lines_from] in Hin. destruct (Ascii.eqb c LF).
    + destruct Hin as [<-|Hin].
      * now apply contains_app_r.
      * apply contains_app_l, contains_cons.
        exact (IH "" Hin Hl).
    + specialize (IH _ Hin Hl). rewrite append_assoc in IH. exact IH.
Qed.

Lemma filter_none {A} (f : A -> bool) (xs : list A) :
  (forall x, In x xs -> f x = false) -> List.filter f xs = [].
Proof.
  induction xs as [|x xs IH]; intros H; [reflexivity|].
  cbn [List.filter]. rewrite (H x (or_introl eq_refl)).
  apply IH. intros y Hy. apply H. now right.
Qed.

(** X6.  When [eloo/.env] is missing, is empty, or does not mention
    [ANTHROPIC_API_KEY] anywhere, the variable is still exported, with the
    empty string as its value. *)
Theorem api_key_empty_without_match
    (fs : gmap string string) (env : gmap string string) :
  match fs !! "eloo/.env" with
  | Some text => contains "ANTHROPIC_API_KEY" text = false
  | None => True
  end ->
  env_sh fs env !! "ANTHROPIC_API_KEY" = Some "".
Proof.
  intros H. unfold env_sh, export. rewrite lookup_insert_eq. f_equal.
  unfold extract. destruct (fs !! "eloo/.env") as [text|]; [|reflexivity].
  cbn [grep]. rewrite filter_none; [reflexivity|].
  intros l Hl. destruct (contains "ANTHROPIC_API_KEY" l) eqn:Hc; [|reflexivity].
  rewrite <- H. symmetry.
  exact (lines_from_contains "ANTHROPIC_API_KEY" text "" l Hl Hc).
Qed.

Lemma api_key_empty_without_match_witness :
  env_sh {[ "eloo/.env" := unlines ["LOG_LEVEL=DEBUG"; "OTHER=1"] ]} ∅
    !! "ANTHROPIC_API_KEY" = Some ""
  /\ env_sh ∅ ∅ !! "ANTHROPIC_API_KEY" = Some "".
Proof.
  split.
  - apply (api_key_empty_without_match
             {[ "eloo/.env" := unlines ["LOG_LEVEL=DEBUG"; "OTHER=1"] ]} ∅).
    rewrite lookup_singleton_eq. reflexivity.
  - apply (api_key_empty_without_match ∅ ∅).
    rewrite lookup_empty. exact I.
Defined.

Lemma command_substitution_no_LF (out : string) :
  ends_with_LF (command_substitution out) = false.
Proof.
  induction out as [|c out IH]; [reflexivity|].
  cbn [command_substitution].
  destruct (command_substitution out) as [|d rest] eqn:Hrest.
  - cbn [string_truthy negb]. rewrite andb_true_r.
    destruct (Ascii.eqb c LF) eqn:Hc; [reflexivity|].
    cbn [ends_with_LF]. exact Hc.
  - cbn [string_truthy negb]. rewrite andb_false_r. exact IH.
Qed.

(** X7.  The exported [ANTHROPIC_API_KEY] never ends with a line feed,
    whatever the file holds. *)
Theorem api_key_has_no_trailing_LF
    (fs : gmap string string) (env : gmap string string) :
  exists v, env_sh fs env !! "ANTHROPIC_API_KEY" = Some v /\
    ends_with_LF v = false.
Proof.
  exists (extract "ANTHROPIC_API_KEY" fs). split.
  - unfold env_sh, export. apply lookup_insert_eq.
  - unfold extract. apply command_substitution_no_LF.
Qed.

(** X8.  Running the script a second time changes nothing, and what it
    exports does not depend on the values the two variables had before. *)
Theorem env_sh_idempotent
    (fs : gmap string string) (env : gmap string string) (a b : string) :
  env_sh fs (env_sh fs env) = env_sh fs env /\
  env_sh fs (<["LOG_LEVEL" := a]> (<["ANTHROPIC_API_KEY" := b]> env))
    = env_sh fs env.
Proof.
  unfold env_sh, export. split; apply map_eq; intros x;
    rewrite !lookup_insert; repeat case_decide; congruence.
Qed.

Lemma single_line_app (a b : string) :
  single_line (a +:+ b) = single_line a && single_line b.
Proof.
  induction a as [|c a IH]; [reflexivity|].
  change (String c a +:+ b) with (String c (a +:+ b)). cbn [single_line].
  rewrite IH. apply andb_assoc.
Qed.

(** No line of a text holds a line feed. *)
Lemma lines_from_single_line (s cur : string) :
  single_line cur = true ->
  Forall (fun l => single_line l = true) (lines_from cur s).
Proof.
  revert cur. induction s as [|c s IH]; intros cur Hcur.
  - cbn [lines_from]. destruct (string_truthy cur); repeat constructor.
    exact Hcur.
  - cbn [lines_from]. destruct (Ascii.eqb c LF) eqn:Hc.
    + constructor; [exact Hcur|]. now apply IH.
    + apply IH. rewrite single_line_app, Hcur. cbn [single_line].
      now rewrite Hc.
Qed.

Lemma lines_single_line (text l : string) :
  In l (lines text) -> single_line l = true.
Proof.
  intros Hl.
  exact (proj1 (List.Forall_forall _ _)
           (lines_from_single_line text "" eq_refl) l Hl).
Qed.

Lemma lines_from_cons_line (cur l rest : string) :
  single_line l = true ->
  lines_from cur (l +:+ String LF rest) = (cur +:+ l) :: lines_from "" rest.
Proof.
  revert cur. induction l as [|c l IH]; intros cur.
  - intros _. rewrite append_nil_r. reflexivity.
  - cbn [single_line]. rewrite andb_true_iff, negb_true_iff.
    intros [Hc Hl].
    change (String c l +:+ String LF rest)
      with (String c (l +:+ String LF rest)).
    cbn [lines_from]. rewrite Hc, (IH _ Hl), append_assoc. reflexivity.
Qed.

(** Splitting what [unlines] printed gives the lines back. *)
Lemma lines_unlines (ls : list string) :
  Forall (fun l => single_line l = true) ls -> lines (unlines ls) = ls.
Proof.
  unfold lines. induction 1 as [|l ls Hl _ IH]; [reflexivity|].
  cbn [unlines]. rewrite (lines_from_cons_line "" l (unlines ls) Hl), IH.
  reflexivity.
Qed.

Lemma after_first_app (d : ascii) (pre v : string) :
  after_first d pre = None ->
  after_first d (pre +:+ String d v) = Some v.
Proof.
  induction pre as [|c pre IH].
  - intros _. change ("" +:+ String d v) with (String d v).
    cbn [after_first]. now rewrite Ascii.eqb_refl.
  - change (String c pre +:+ String d v) with (String c (pre +:+ String d v)).
    cbn [after_first]. destruct (Ascii.eqb c d); [discriminate|exact IH].
Qed.

Lemma single_line_value (pre v : string) :
  single_line (pre +:+ String "=" v) = true -> single_line v = true.
Proof.
  rewrite single_line_app, andb_true_iff. intros [_ H].
  cbn [single_line] in H. now rewrite andb_true_iff in H.
Qed.

(** What the script exports for a text whose lines are known. *)
Lemma extract_text (text : string)
    (fs : gmap string string) (env : gmap string string) :
  fs !! "eloo/.env" = Some text ->
  ascii_text text = true ->
  env_sh fs env !! "ANTHROPIC_API_KEY" =
  Some (command_substitution
          (unlines (List.map (cut_f2 "=")
             (List.filter (contains "ANTHROPIC_API_KEY") (lines text))))).
Proof.
  intros Hfile _. unfold env_sh, export. rewrite lookup_insert_eq.
  unfold extract. now rewrite Hfile.
Qed.

(** X9.  When exactly one line of the text [eloo/.env] mentions the key,
    and that line reads P=V with no [=] in P, the exported value is V as
    it is written: later [=] signs, quotes and blanks in V are kept.  The
    key may stand anywhere in P, so a commented-out or longer name
    matches too.  The last line of the file need not end with a line
    feed. *)
Theorem api_key_of_single_assignment
    (text pre v : string)
    (fs : gmap string string) (env : gmap string string) :
  fs !! "eloo/.env" = Some text ->
  ascii_text text = true ->
  List.filter (contains "ANTHROPIC_API_KEY") (lines text)
    = [pre +:+ String "=" v] ->
  after_first "=" pre = None ->
  env_sh fs env !! "ANTHROPIC_API_KEY" = Some v.
Proof.
  intros Hfile Htext Hmatch Hpre.
  rewrite (extract_text text fs env Hfile Htext), Hmatch. f_equal.
  cbn [List.map unlines]. unfold cut_f2.
  rewrite (after_first_app "=" pre v Hpre).
  change (default (pre +:+ String "=" v) (Some v)) with v.
  apply command_substitution_line.
  apply (single_line_value pre v), (lines_single_line text).
  apply (proj1 (List.filter_In (contains "ANTHROPIC_API_KEY") _ (lines text))).
  rewrite Hmatch. now left.
Qed.

Lemma api_key_of_single_assignment_witness :
  env_sh {[ "eloo/.env" :=
              "LOG_LEVEL=DEBUG" +:+ String LF "# ANTHROPIC_API_KEY=sk=1" ]} ∅
    !! "ANTHROPIC_API_KEY" = Some "sk=1".
Proof.
  apply (api_key_of_single_assignment
           ("LOG_LEVEL=DEBUG" +:+ String LF "# ANTHROPIC_API_KEY=sk=1")
           "# ANTHROPIC_API_KEY" "sk=1").
  - apply lookup_singleton_eq.
  - reflexivity.
  - reflexivity.
  - reflexivity.
Defined.

(** X10.  A line of the text [eloo/.env] that mentions the key but holds
    no [=] is exported whole, when it is the only line that mentions the
    key. *)
Theorem api_key_of_line_without_delimiter
    (text l : string)
    (fs : gmap string string) (env : gmap string string) :
  fs !! "eloo/.env" = Some text ->
  ascii_text text = true ->
  List.filter (contains "ANTHROPIC_API_KEY") (lines text) = [l] ->
  after_first "=" l = None ->
  env_sh fs env !! "ANTHROPIC_API_KEY" = Some l.
Proof.
  intros Hfile Htext Hmatch Hl.
  rewrite (extract_text text fs env Hfile Htext), Hmatch. f_equal.
  cbn [List.map unlines]. unfold cut_f2. rewrite Hl.
  change (default l None) with l.
  apply command_substitution_line, (lines_single_line text).
  apply (proj1 (List.filter_In (contains "ANTHROPIC_API_KEY") _ (lines text))).
  rewrite Hmatch. now left.
Qed.

Lemma api_key_of_line_without_delimiter_witness :
  env_sh {[ "eloo/.env" :=
              "OTHER=1" +:+ String LF "# set ANTHROPIC_API_KEY below" ]} ∅
    !! "ANTHROPIC_API_KEY" = Some "# set ANTHROPIC_API_KEY below".
Proof.
  apply (api_key_of_line_without_delimiter
           ("OTHER=1" +:+ String LF "# set ANTHROPIC_API_KEY below")
           "# set ANTHROPIC_API_KEY below").
  - apply lookup_singleton_eq.
  - reflexivity.
  - reflexivity.
  - reflexivity.
Defined.

Lemma command_substitution_app (a b : string) :
  string_truthy (command_substitution b) = true ->
  command_substitution (a +:+ b) = a +:+ command_substitution b.
Proof.
  intros Hb. induction a as [|c a IH]; [reflexivity|].
  change (String c a +:+ b) with (String c (a +:+ b)).
  cbn [command_substitution]. rewrite IH.
  assert (Hne : string_truthy (a +:+ command_substitution b) = true).
  { destruct a; [exact Hb|reflexivity]. }
  rewrite Hne. cbn [negb]. rewrite andb_false_r. reflexivity.
Qed.

(** X11.  When two lines of the text [eloo/.env] mention the key, P1=V1
    and then P2=V2 with a non-empty V2, the exported value holds both:
    V1, a line feed, V2. *)
Theorem api_key_of_two_assignments
    (text p1 v1 p2 v2 : string)
    (fs : gmap string string) (env : gmap string string) :
  fs !! "eloo/.env" = Some text ->
  ascii_text text = true ->
  List.filter (contains "ANTHROPIC_API_KEY") (lines text)
    = [p1 +:+ String "=" v1; p2 +:+ String "=" v2] ->
  after_first "=" p1 = None -> after_first "=" p2 = None ->
  string_truthy v2 = true ->
  env_sh fs env !! "ANTHROPIC_API_KEY" = Some (v1 +:+ String LF v2).
Proof.
  intros Hfile Htext Hmatch Hp1 Hp2 Hv2.
  rewrite (extract_text text fs env Hfile Htext), Hmatch. f_equal.
  cbn [List.map unlines]. unfold cut_f2.
  rewrite (after_first_app "=" p1 v1 Hp1), (after_first_app "=" p2 v2 Hp2).
  change (default (p1 +:+ String "=" v1) (Some v1)) with v1.
  change (default (p2 +:+ String "=" v2) (Some v2)) with v2.
  assert (Hl : single_line v2 = true).
  { apply (single_line_value p2 v2), (lines_single_line text).
    apply (proj1 (List.filter_In (contains "ANTHROPIC_API_KEY") _ (lines text))).
    rewrite Hmatch. right. now left. }
  assert (Htail : command_substitution (String LF (v2 +:+ String LF ""))
                  = String LF v2).
  { cbn [command_substitution]. rewrite (command_substitution_line v2 Hl), Hv2.
    cbn [negb]. rewrite andb_false_r. reflexivity. }
  rewrite command_substitution_app; rewrite Htail; reflexivity.
Qed.

Lemma api_key_of_two_assignments_witness :
  env_sh {[ "eloo/.env" :=
              unlines ["ANTHROPIC_API_KEY=old"; "X=1"]
              +:+ "ANTHROPIC_API_KEY=new" ]} ∅
    !! "ANTHROPIC_API_KEY" = Some ("old" +:+ String LF "new").
Proof.
  apply (api_key_of_two_assignments
           (unlines ["ANTHROPIC_API_KEY=old"; "X=1"] +:+ "ANTHROPIC_API_KEY=new")
           "ANTHROPIC_API_KEY" "old" "ANTHROPIC_API_KEY" "new").
  - apply lookup_singleton_eq.
  - reflexivity.
  - reflexivity.
  - reflexivity.
  - reflexivity.
  - reflexivity.
Defined.
